(** * Meshtastic frequency-slot calculator: a shallow embedding of
      [src/frequency_slot.py] and the properties of its resolution pipeline.

    The program is plain Python: unbounded integers, binary64 floats and
    exceptions.  Integers are [Z]; floats are the IEEE-754 binary64 values of
    the Standard Library's [SpecFloat] (radix 2, 53 bits of precision,
    round-to-nearest-even), so every float operation below computes the very
    bits CPython computes; exceptions are the left summand of an error monad. *)

From Stdlib Require Import ZArith List String Ascii Bool Lia.
From Stdlib Require Import Floats.SpecFloat.
From ExtLib Require Import Structures.Monad Structures.MonadExc.
From ExtLib Require Import Data.Monads.EitherMonad.
Import ListNotations.
Import MonadNotation.
Local Open Scope monad_scope.
Local Open Scope Z_scope.

(* ===================================================================== *)
(** ** The Python operations the program relies on                        *)
(* ===================================================================== *)

Module Py.

(** The exceptions the arithmetic of the program can raise. *)
Inductive exn : Set :=
| ZeroDivisionError
| OverflowError
| ValueError.

(** A computation either raises ([inl]) or returns ([inr]). *)
Definition result : Type -> Type := sum exn.

(** *** Strings

    A [str] is a sequence of Unicode code points; [ord] of a one-character
    string is its code point. *)
Definition str : Set := list Z.

Definition ord (c : Z) : Z := c.

(** The string literal of the source text (ASCII literals only). *)
Definition lit (s : string) : str :=
  List.map (fun a => Z.of_N (N_of_ascii a)) (list_ascii_of_string s).

(** [s == t] on strings. *)
Fixpoint str_eqb (s t : str) : bool :=
  match s, t with
  | [], [] => true
  | c :: s', d :: t' => (c =? d) && str_eqb s' t'
  | _, _ => false
  end.

(** [x in xs] for a list of strings. *)
Definition str_in (x : str) (xs : list str) : bool := existsb (str_eqb x) xs.

(** *** Floats: binary64 *)
Definition prec : Z := 53.
Definition emax : Z := 1024.

Definition float : Set := spec_float.

Definition float_add : float -> float -> float := SFadd prec emax.
Definition float_sub : float -> float -> float := SFsub prec emax.
Definition float_mul : float -> float -> float := SFmul prec emax.

Definition is_zero (x : float) : bool :=
  match x with S754_zero _ => true | _ => false end.

(** [x / y] on floats: a zero divisor raises, everything else follows
    IEEE-754 (an overflowing quotient is an infinity, not an error). *)
Definition float_truediv (x y : float) : result float :=
  if is_zero y then raise ZeroDivisionError else ret (SFdiv prec emax x y).

(** [float(n)]: the integer rounded to the nearest float, ties to even;
    an integer beyond the float range raises. *)
Definition float_of_int (n : Z) : result float :=
  match binary_normalize prec emax n 0 false with
  | S754_infinity _ => raise OverflowError
  | x => ret x
  end.

(** The quotient [a / b] of two integers, [b <> 0], rounded once to the
    nearest float (ties to even); the sign of a zero result is the sign the
    quotient would have. *)
Definition nearest_quotient (a b : Z) : float :=
  let negate := xorb (a <? 0) (b <? 0) in
  match a with
  | 0 => S754_zero negate
  | _ =>
      let '(q, e, l) := SFdiv_core_binary prec emax (Z.abs a) 0 (Z.abs b) 0 in
      binary_round_aux prec emax negate q e l
  end.

(** [a / b] on integers (true division): the correctly rounded quotient. *)
Definition int_truediv (a b : Z) : result float :=
  if b =? 0 then raise ZeroDivisionError
  else match nearest_quotient a b with
       | S754_infinity _ => raise OverflowError
       | x => ret x
       end.

(** [a % b] on integers: the remainder has the sign of the divisor. *)
Definition int_mod (a b : Z) : result Z :=
  if b =? 0 then raise ZeroDivisionError else ret (a mod b).

(** [math.floor(x)]: the largest integer not above [x]. *)
Definition math_floor (x : float) : result Z :=
  match x with
  | S754_nan => raise ValueError
  | S754_infinity _ => raise OverflowError
  | S754_zero _ => ret 0
  | S754_finite s m e => ret (Z.shiftl (cond_Zopp s (Zpos m)) e)
  end.

(** A decimal float literal of the source text: [digits] with the point
    [places] digits from the right, read as the nearest float. *)
Definition dec (digits : Z) (places : nat) : float :=
  nearest_quotient digits (10 ^ Z.of_nat places).

End Py.

Import Py.

(* ===================================================================== *)
(** ** The program                                                        *)
(* ===================================================================== *)

Module FrequencySlot.

(** One value of [REGION_FREQUENCIES]. *)
Record region_params : Set := mk_params {
  freq_start : float;
  freq_end : float;
  spacing : Z;
  description : string
}.

(** [REGION_FREQUENCIES], in the order of the dict literal. *)
Definition REGION_FREQUENCIES : list (str * region_params) := [
  (lit "US",     mk_params (dec 9020 1) (dec 9280 1) 0
                   "North America - 915 MHz ISM Band");
  (lit "EU_868", mk_params (dec 8630 1) (dec 8700 1) 0
                   "Europe - 868 MHz ISM Band");
  (lit "EU_433", mk_params (dec 4330 1) (dec 43479 2) 0
                   "Europe - 433 MHz ISM Band");
  (lit "ANZ",    mk_params (dec 9150 1) (dec 9280 1) 0
                   "Australia/New Zealand - 915 MHz ISM Band");
  (lit "NZ_865", mk_params (dec 8640 1) (dec 8680 1) 0
                   "New Zealand - 865 MHz Band");
  (lit "CN",     mk_params (dec 4700 1) (dec 5100 1) 0
                   "China - 470-510 MHz Band");
  (lit "JP",     mk_params (dec 9200 1) (dec 9280 1) 0
                   "Japan - 920 MHz Band");
  (lit "KR",     mk_params (dec 9200 1) (dec 9230 1) 0
                   "Korea - 920 MHz Band");
  (lit "TW",     mk_params (dec 9200 1) (dec 9250 1) 0
                   "Taiwan - 920 MHz Band");
  (lit "RU",     mk_params (dec 8687 1) (dec 8692 1) 0
                   "Russia - 868 MHz Band");
  (lit "IN",     mk_params (dec 8650 1) (dec 8670 1) 0
                   "India - 865 MHz Band");
  (lit "NP_865", mk_params (dec 8650 1) (dec 8670 1) 0
                   "Nepal - 865 MHz Band");
  (lit "TH",     mk_params (dec 9200 1) (dec 9250 1) 0
                   "Thailand - 920 MHz Band");
  (lit "MY_919", mk_params (dec 9190 1) (dec 9240 1) 0
                   "Malaysia - 919 MHz Band");
  (lit "MY_433", mk_params (dec 4330 1) (dec 4350 1) 0
                   "Malaysia - 433 MHz Band");
  (lit "SG_923", mk_params (dec 9200 1) (dec 9250 1) 0
                   "Singapore - 923 MHz Band");
  (lit "UA_868", mk_params (dec 8630 1) (dec 8700 1) 0
                   "Ukraine - 868 MHz Band");
  (lit "UA_433", mk_params (dec 4330 1) (dec 43479 2) 0
                   "Ukraine - 433 MHz Band")
].

(** [d[k]] guarded by [k in d]: the value of the first entry with key [k]. *)
Fixpoint dict_get {V : Type} (d : list (str * V)) (k : str) : option V :=
  match d with
  | [] => None
  | (k', v) :: d' => if str_eqb k k' then Some v else dict_get d' k
  end.

(** What the two region listings print: each code with its description. *)
Definition region_listing : list (str * string) :=
  List.map (fun kv => (fst kv, description (snd kv))) REGION_FREQUENCIES.

(** [get_region_parameters]: [None] stands for the error message followed
    by the listing and the [return None]. *)
Definition get_region_parameters (region : str) : option region_params :=
  dict_get REGION_FREQUENCIES region.

Definition get_bandwidth_khz (channel_name : str) : Z :=
  if str_eqb channel_name (lit "ShortTurbo") then 500
  else if str_in channel_name [lit "LongMod"; lit "LongSlow"] then 125
  else 250.

(** [math.floor((freq_end - freq_start) / (spacing + (bw / 1000)))], with
    [spacing] and [bw] integers as [main] passes them: [bw / 1000] is an
    integer true division, and [spacing] is converted for the addition. *)
Definition calculate_num_freq_slots
    (freq_start freq_end : float) (spacing bw : Z) : result Z :=
  let span := float_sub freq_end freq_start in
  width <- int_truediv bw 1000 ;;
  sp <- float_of_int spacing ;;
  q <- float_truediv span (float_add sp width) ;;
  math_floor q.

Definition mask : Z := 0xFFFFFFFF.

Definition hash_string (s : str) : Z :=
  fold_left
    (fun hash_value c => Z.land ((Z.shiftl hash_value 5 + hash_value) + ord c) mask)
    s 5381.

Definition determine_frequency_slot (channel_name : str) (num_freq_slots : Z)
    : result Z :=
  int_mod (hash_string channel_name) num_freq_slots.

(** [freq_start + (bw / 2000) + (frequency_slot * (bw / 1000))]. *)
Definition calculate_frequency
    (freq_start : float) (frequency_slot bw : Z) : result float :=
  half <- int_truediv bw 2000 ;;
  let base := float_add freq_start half in
  width <- int_truediv bw 1000 ;;
  k <- float_of_int frequency_slot ;;
  ret (float_add base (float_mul k width)).

(** The values [print_results] writes, line by line. *)
Record report : Set := mk_report {
  shown_region : str;
  shown_description : string;
  shown_range : float * float;
  shown_channel_name : str;
  shown_num_freq_slots : Z;
  shown_frequency_slot : Z;
  shown_freq : float;
  shown_bw : Z
}.

Definition print_results (channel_name region : str)
    (num_freq_slots frequency_slot : Z) (freq : float) (bw : Z)
    (params : region_params) : report :=
  mk_report region (description params)
            (freq_start params, freq_end params)
            channel_name num_freq_slots (frequency_slot + 1) freq bw.

(** The parsed command line. *)
Record args : Set := mk_args {
  arg_channel_name : str;
  arg_bandwidth : option Z;
  arg_region : str
}.

(** The command line with no flag given. *)
Definition default_args : args := mk_args (lit "LongFast") None (lit "US").

(** How a run of [main] ends. *)
Inductive outcome : Set :=
| RegionHelp (listing : list (str * string))
| InvalidRegion (region : str) (listing : list (str * string))
| Printed (r : report)
| Uncaught (e : exn).

(** The bandwidth [main] settles on (the [if args.bandwidth is not None]). *)
Definition select_bandwidth (a : args) : Z :=
  match arg_bandwidth a with
  | Some b => b
  | None => get_bandwidth_khz (arg_channel_name a)
  end.

(** [main] from the lookup of the region onwards. *)
Definition resolve (a : args) (params : region_params) : result report :=
  let channel_name := arg_channel_name a in
  let bw := select_bandwidth a in
  let region_freq_start := freq_start params in
  let region_freq_end := freq_end params in
  let region_spacing := spacing params in
  num_freq_slots <-
    calculate_num_freq_slots region_freq_start region_freq_end region_spacing bw ;;
  frequency_slot <- determine_frequency_slot channel_name num_freq_slots ;;
  freq <- calculate_frequency region_freq_start frequency_slot bw ;;
  ret (print_results channel_name (arg_region a) num_freq_slots
                     frequency_slot freq bw params).

Definition main (a : args) : outcome :=
  if str_eqb (arg_region a) (lit "help") then RegionHelp region_listing
  else
    match get_region_parameters (arg_region a) with
    | None => InvalidRegion (arg_region a) region_listing
    | Some params =>
        match resolve a params with
        | inl e => Uncaught e
        | inr r => Printed r
        end
    end.

End FrequencySlot.

Import FrequencySlot.

(* ===================================================================== *)
(** ** The specification's formulas                                       *)
(* ===================================================================== *)

Module Spec.

(** djb2: the accumulator becomes [accumulator*33 + code_point], kept to
    its low 32 bits. *)
Definition djb2_step (accumulator code_point : Z) : Z :=
  (accumulator * 33 + code_point) mod 2 ^ 32.

Definition djb2 (s : str) : Z := fold_left djb2_step s 5381.

(** An integer as a float (exact below [2^53]). *)
Definition to_float (n : Z) : float := binary_normalize prec emax n 0 false.



(** [band_start + bandwidth_khz/2000 + slot_index * (bandwidth_khz/1000)]. *)
Definition frequency (band_start : float) (slot_index bandwidth_khz : Z)
    : float :=
  SFadd prec emax
    (SFadd prec emax band_start
       (SFdiv prec emax (to_float bandwidth_khz) (to_float 2000)))
    (SFmul prec emax (to_float slot_index)
       (SFdiv prec emax (to_float bandwidth_khz) (to_float 1000))).

(** "Slot-count computation fails if the result is <= 0": the slot-count
    computation never hands its caller a count below 1. *)
Definition degenerate_band_is_an_error : Prop :=
  forall (band_start band_end : float) (spacing bw n : Z),
    calculate_num_freq_slots band_start band_end spacing bw = inr n -> 1 <= n.



End Spec.

(** Every region of the table has at least one slot at bandwidth [bw]. *)
Definition table_has_slots (bw : Z) : bool :=
  forallb
    (fun kv : str * region_params =>
       match calculate_num_freq_slots (freq_start (snd kv)) (freq_end (snd kv))
               (spacing (snd kv)) bw with
       | inr n => 1 <=? n
       | inl _ => false
       end)
    REGION_FREQUENCIES.

(** The integers [0, 1, ..., n-1] a slot index ranges over. *)
Definition upto (n : Z) : list Z := List.map Z.of_nat (seq 0 (Z.to_nat n)).

(** The integers [lo, lo+1, ..., lo+len-1]. *)
Definition span_from (lo len : nat) : list Z := List.map Z.of_nat (seq lo len).

(** [freq_start < f < freq_end], as the comparison of floats decides it. *)
Definition in_band (params : region_params) (f : float) : bool :=
  SFltb (freq_start params) f && SFltb f (freq_end params).

(** At bandwidth [bw] the band has at least one slot and every slot index
    below the slot count gives a frequency strictly inside the band. *)
Definition slots_in_band (params : region_params) (bw : Z) : bool :=
  match calculate_num_freq_slots (freq_start params) (freq_end params)
          (spacing params) bw with
  | inr n =>
      (1 <=? n) &&
      forallb
        (fun k => match calculate_frequency (freq_start params) k bw with
                  | inr f => in_band params f
                  | inl _ => false
                  end)
        (upto n)
  | inl _ => false
  end.

(** No string occurs twice in the list. *)
Fixpoint distinct (l : list str) : bool :=
  match l with
  | [] => true
  | x :: r => negb (str_in x r) && distinct r
  end.

(** The codes of the region table, in its order. *)
Definition region_codes : list str := List.map fst REGION_FREQUENCIES.

(** The float is not below zero (a NaN is not either). *)
Definition not_negative (x : float) : bool :=
  match x with
  | S754_finite true _ _ | S754_infinity true => false
  | _ => true
  end.

(** The loop of [hash_string] with the line [hash_value &= mask] left out. *)
Definition unmasked_hash (s : str) : Z :=
  fold_left (fun hash_value c => (Z.shiftl hash_value 5 + hash_value) + ord c)
            s 5381.

(* ===================================================================== *)
(** ** Strings and the region table                                       *)
(* ===================================================================== *)

Lemma str_eqb_eq (s t : str) : str_eqb s t = true <-> s = t.
Proof.
  revert t; induction s as [|c s IH]; intros [|d t]; simpl; split;
    try congruence; try reflexivity.
  - intros H. apply andb_true_iff in H as [Hc Hs].
    apply Z.eqb_eq in Hc. apply IH in Hs. congruence.
  - intros H. injection H as -> ->.
    rewrite Z.eqb_refl. simpl. apply IH. reflexivity.
Qed.

Lemma str_eqb_neq (s t : str) : str_eqb s t = false <-> s <> t.
Proof.
  rewrite <- str_eqb_eq. destruct (str_eqb s t); split; congruence.
Qed.

Lemma dict_get_In {V : Type} (d : list (str * V)) (k : str) (v : V) :
  dict_get d k = Some v -> In (k, v) d.
Proof.
  induction d as [|[k' v'] d IH]; simpl; [discriminate|].
  destruct (str_eqb k k') eqn:E.
  - apply str_eqb_eq in E. intros [= ->]. left. congruence.
  - intros H. right. apply IH, H.
Qed.

(** ["help"] is not a region code, so a region that is found is not the
    help request. *)
Lemma found_region_is_not_help (region : str) (params : region_params) :
  get_region_parameters region = Some params ->
  str_eqb region (lit "help") = false.
Proof.
  intros H. destruct (str_eqb region (lit "help")) eqn:E; [|reflexivity].
  apply str_eqb_eq in E. subst region. vm_compute in H. discriminate.
Qed.

Lemma main_found (a : args) (params : region_params) :
  get_region_parameters (arg_region a) = Some params ->
  main a = match resolve a params with
           | inl e => Uncaught e
           | inr r => Printed r
           end.
Proof.
  intros H. unfold main.
  rewrite (found_region_is_not_help _ _ H), H. reflexivity.
Qed.

(** The bandwidths the name classification can produce. *)
Lemma get_bandwidth_khz_cases (channel_name : str) :
  get_bandwidth_khz channel_name = 500 \/
  get_bandwidth_khz channel_name = 125 \/
  get_bandwidth_khz channel_name = 250.
Proof.
  unfold get_bandwidth_khz.
  destruct (str_eqb _ _); [now left|].
  destruct (str_in _ _); [now right; left | now right; right].
Qed.

(** The float literals of the table: a whole number is that number, and
    434.79, 868.7 and 869.2 are the nearest floats 0x1.b2ca3d70a3d71p+8,
    0x1.b25999999999ap+9 and 0x1.b29999999999ap+9. *)
Lemma table_literals :
  dec 9020 1 = Spec.to_float 902
  /\ dec 4330 1 = Spec.to_float 433
  /\ dec 43479 2 = S754_finite false 0x1b2ca3d70a3d71 (8 - 52)
  /\ dec 8687 1 = S754_finite false 0x1b25999999999a (9 - 52)
  /\ dec 8692 1 = S754_finite false 0x1b29999999999a (9 - 52)
  /\ float_sub (dec 8692 1) (dec 8687 1) = dec 5 1.
Proof. repeat split; vm_compute; reflexivity. Qed.

(* ===================================================================== *)
(** ** The hash                                                           *)
(* ===================================================================== *)

Lemma mask_ones : mask = Z.ones 32.
Proof. reflexivity. Qed.

(** One turn of the loop is one djb2 step. *)
Lemma hash_step (h c : Z) :
  Z.land ((Z.shiftl h 5 + h) + ord c) mask = Spec.djb2_step h c.
Proof.
  unfold Spec.djb2_step, ord.
  rewrite mask_ones, Z.land_ones by lia.
  rewrite Z.shiftl_mul_pow2 by lia.
  f_equal. change (2 ^ 5) with 32. lia.
Qed.

Lemma fold_hash_step (s : str) (h : Z) :
  fold_left (fun hash_value c =>
               Z.land ((Z.shiftl hash_value 5 + hash_value) + ord c) mask) s h
  = fold_left Spec.djb2_step s h.
Proof.
  revert h; induction s as [|c s IH]; intros h; cbn [fold_left]; [reflexivity|].
  rewrite hash_step. apply IH.
Qed.

Lemma djb2_fold_range (s : str) (h : Z) :
  0 <= h < 2 ^ 32 -> 0 <= fold_left Spec.djb2_step s h < 2 ^ 32.
Proof.
  revert h; induction s as [|c s IH]; intros h Hh; simpl; [exact Hh|].
  apply IH. unfold Spec.djb2_step. apply Z.mod_pos_bound. lia.
Qed.

Lemma hash_string_range (s : str) : 0 <= hash_string s < 2 ^ 32.
Proof.
  unfold hash_string. rewrite fold_hash_step.
  apply djb2_fold_range. lia.
Qed.

(* ===================================================================== *)
(** ** ChannelHasher and BandwidthPolicy                                  *)
(* ===================================================================== *)

(** C2: for every string, [hash_string] is the djb2 fold from 5381 with the
    step [(accumulator*33 + code_point) mod 2^32]; its value lies in
    [0, 2^32 - 1]; the hash of the empty string is 5381. *)
Theorem hash_string_is_djb2 :
  (forall s : str,
      hash_string s = Spec.djb2 s /\ 0 <= hash_string s <= 2 ^ 32 - 1)
  /\ hash_string (lit "") = 5381.
Proof.
  split; [|reflexivity].
  intros s. split.
  - unfold hash_string, Spec.djb2. apply fold_hash_step.
  - pose proof (hash_string_range s). lia.
Qed.

(** C3: the name classification returns 500 exactly for "ShortTurbo", 125
    exactly for "LongMod" and "LongSlow", and 250 for every other string; the
    match is on the whole string and on the case of its letters. *)
Theorem get_bandwidth_khz_exact_match :
  (forall channel_name : str,
      (get_bandwidth_khz channel_name = 500 <->
         channel_name = lit "ShortTurbo") /\
      (get_bandwidth_khz channel_name = 125 <->
         (channel_name = lit "LongMod" \/ channel_name = lit "LongSlow")) /\
      (get_bandwidth_khz channel_name = 250 <->
         (channel_name <> lit "ShortTurbo" /\ channel_name <> lit "LongMod" /\
          channel_name <> lit "LongSlow")))
  /\ get_bandwidth_khz (lit "LongFast") = 250
  /\ get_bandwidth_khz (lit "shortturbo") = 250
  /\ get_bandwidth_khz (lit "ShortTurbo ") = 250
  /\ get_bandwidth_khz (lit "Short") = 250
  /\ get_bandwidth_khz (lit "LongSlowly") = 250
  /\ get_bandwidth_khz (lit "LONGMOD") = 250.
Proof.
  split; [|repeat split; reflexivity].
  intros channel_name. unfold get_bandwidth_khz, str_in. cbn [existsb].
  rewrite orb_false_r.
  destruct (str_eqb channel_name (lit "ShortTurbo")) eqn:E1;
    [apply str_eqb_eq in E1 | apply str_eqb_neq in E1].
  { subst channel_name. repeat split; try discriminate; try reflexivity.
    - intros [H | H]; discriminate H.
    - intros [H _]. now contradict H. }
  destruct (str_eqb channel_name (lit "LongMod")) eqn:E2;
    [apply str_eqb_eq in E2 | apply str_eqb_neq in E2].
  { subst channel_name. cbn [orb]. repeat split; try discriminate; auto.
    intros (_ & H & _). now contradict H. }
  destruct (str_eqb channel_name (lit "LongSlow")) eqn:E3;
    [apply str_eqb_eq in E3 | apply str_eqb_neq in E3].
  { subst channel_name. cbn [orb]. repeat split; try discriminate; auto.
    intros (_ & _ & H). now contradict H. }
  cbn [orb]. repeat split; try discriminate; try assumption; try reflexivity.
  - intros H. contradiction.
  - intros [H | H]; contradiction.
Qed.

(** C4: a supplied bandwidth override is the bandwidth the whole resolution
    runs with, whatever bandwidth the channel name stands for; with channel
    "ShortTurbo" and override 125 the run uses 125 (208 slots in "US"). *)
Theorem override_is_effective_bandwidth :
  (forall (channel_name region : str) (b : Z) (params : region_params),
      let a := mk_args channel_name (Some b) region in
      select_bandwidth a = b /\
      resolve a params =
        (num_freq_slots <- calculate_num_freq_slots (freq_start params)
                             (freq_end params) (spacing params) b ;;
         frequency_slot <- determine_frequency_slot channel_name num_freq_slots ;;
         freq <- calculate_frequency (freq_start params) frequency_slot b ;;
         ret (print_results channel_name region num_freq_slots frequency_slot
                            freq b params)) /\
      match resolve a params with
      | inr r => shown_bw r = b
      | inl _ => True
      end)
  /\ get_bandwidth_khz (lit "ShortTurbo") = 500
  /\ select_bandwidth (mk_args (lit "ShortTurbo") (Some 125) (lit "US")) = 125
  /\ exists r, main (mk_args (lit "ShortTurbo") (Some 125) (lit "US")) = Printed r
               /\ shown_bw r = 125 /\ shown_num_freq_slots r = 208.
Proof.
  split.
  - intros channel_name region b params a.
    split; [reflexivity|]. split; [reflexivity|].
    unfold resolve. cbn zeta. change (select_bandwidth a) with b.
    destruct (calculate_num_freq_slots _ _ _ b) as [e | n];
      cbn [bind Monad_either]; [exact I|].
    destruct (determine_frequency_slot _ n) as [e | k];
      cbn [bind Monad_either]; [exact I|].
    destruct (calculate_frequency _ k b) as [e | f];
      cbn [bind ret Monad_either]; [exact I | reflexivity].
  - split; [reflexivity|]. split; [reflexivity|].
    eexists. split; [vm_compute; reflexivity|]. split; reflexivity.
Qed.

(* ===================================================================== *)
(** ** SlotResolver: the slot index                                       *)
(* ===================================================================== *)

(** C6: for a slot count of at least 1 the slot index is the hash modulo the
    slot count, the unsigned remainder, and lies in [0, slot_count - 1]. *)
Theorem determine_frequency_slot_in_range (channel_name : str) (n : Z) :
  1 <= n ->
  determine_frequency_slot channel_name n = inr (hash_string channel_name mod n)
  /\ hash_string channel_name mod n = Z.rem (hash_string channel_name) n
  /\ 0 <= hash_string channel_name mod n <= n - 1.
Proof.
  intros Hn. pose proof (hash_string_range channel_name) as Hh.
  unfold determine_frequency_slot, int_mod.
  destruct (Z.eqb_spec n 0) as [->|_]; [lia|].
  split; [reflexivity|]. split.
  - symmetry. apply Z.rem_mod_nonneg; lia.
  - pose proof (Z.mod_pos_bound (hash_string channel_name) n). lia.
Qed.

Lemma determine_frequency_slot_in_range_witness :
  1 <= 104 /\
  determine_frequency_slot (lit "LongFast") 104
    = inr (hash_string (lit "LongFast") mod 104).
Proof.
  split; [lia|].
  apply (determine_frequency_slot_in_range (lit "LongFast") 104). lia.
Defined.

(** C10: when the slot count of a run is 0, [determine_frequency_slot] takes
    the hash modulo zero and raises [ZeroDivisionError]; nothing between the
    slot count and the slot index catches it, so the run ends with it. *)
Theorem zero_slots_raise_ZeroDivisionError (a : args) (params : region_params) :
  get_region_parameters (arg_region a) = Some params ->
  calculate_num_freq_slots (freq_start params) (freq_end params)
    (spacing params) (select_bandwidth a) = inr 0 ->
  determine_frequency_slot (arg_channel_name a) 0 = inl ZeroDivisionError
  /\ resolve a params = inl ZeroDivisionError
  /\ main a = Uncaught ZeroDivisionError.
Proof.
  intros Hr Hn.
  assert (Hres : resolve a params = inl ZeroDivisionError).
  { unfold resolve. cbn zeta. rewrite Hn. reflexivity. }
  split; [reflexivity|]. split; [exact Hres|].
  rewrite (main_found _ _ Hr), Hres. reflexivity.
Qed.

Lemma zero_slots_raise_ZeroDivisionError_witness :
  main (mk_args (lit "LongFast") (Some 30000) (lit "US"))
  = Uncaught ZeroDivisionError.
Proof.
  apply (zero_slots_raise_ZeroDivisionError
           (mk_args (lit "LongFast") (Some 30000) (lit "US"))
           (mk_params (dec 9020 1) (dec 9280 1) 0
                      "North America - 915 MHz ISM Band")).
  - reflexivity.
  - vm_compute. reflexivity.
Defined.

(* ===================================================================== *)
(** ** The region table                                                   *)
(* ===================================================================== *)

(** C9: every region of the table has at least one slot at each bandwidth the
    name classification can produce (125, 250 and 500 kHz). *)
Theorem shipped_regions_have_slots :
  (forall channel_name : str, In (get_bandwidth_khz channel_name) [125; 250; 500])
  /\ forall (region : str) (params : region_params) (bw : Z),
       In (region, params) REGION_FREQUENCIES ->
       In bw [125; 250; 500] ->
       exists n,
         calculate_num_freq_slots (freq_start params) (freq_end params)
           (spacing params) bw = inr n
         /\ 1 <= n.
Proof.
  split.
  - intros channel_name. cbn [In].
    destruct (get_bandwidth_khz_cases channel_name) as [-> | [-> | ->]]; auto.
  - intros region params bw Hin Hbw.
    assert (Hall : table_has_slots bw = true).
    { cbn [In] in Hbw.
      destruct Hbw as [<- | [<- | [<- | []]]]; vm_compute; reflexivity. }
    unfold table_has_slots in Hall. rewrite forallb_forall in Hall.
    specialize (Hall _ Hin). cbn [snd] in Hall.
    destruct (calculate_num_freq_slots _ _ _ _) as [e | n]; [discriminate|].
    exists n. split; [reflexivity|]. apply Z.leb_le, Hall.
Qed.

Lemma shipped_regions_have_slots_witness :
  exists n,
    calculate_num_freq_slots (dec 8687 1) (dec 8692 1) 0 500 = inr n /\ 1 <= n.
Proof.
  apply (proj2 shipped_regions_have_slots (lit "RU")
           (mk_params (dec 8687 1) (dec 8692 1) 0 "Russia - 868 MHz Band") 500).
  - cbn [In REGION_FREQUENCIES]. do 9 right. left. reflexivity.
  - cbn [In]. auto.
Defined.

(* ===================================================================== *)
(** ** End to end                                                         *)
(* ===================================================================== *)

(** C8: region "US" (902.0 to 928.0 MHz), channel "LongFast", no override:
    the bandwidth is 250 kHz, the slot count is floor(26/0.25) = 104, the slot
    index is the hash of "LongFast" modulo 104, and the frequency is
    902.0 + 0.125 + slot_index*0.25 MHz. *)
Theorem us_longfast_scenario :
  let us := mk_params (dec 9020 1) (dec 9280 1) 0
                      "North America - 915 MHz ISM Band" in
  let slot := hash_string (lit "LongFast") mod 104 in
  default_args = mk_args (lit "LongFast") None (lit "US")
  /\ get_region_parameters (lit "US") = Some us
  /\ select_bandwidth default_args = 250
  /\ float_sub (freq_end us) (freq_start us) = dec 26 0
  /\ int_truediv 250 1000 = inr (dec 25 2)
  /\ float_truediv (dec 26 0) (dec 25 2) = inr (dec 104 0)
  /\ calculate_num_freq_slots (freq_start us) (freq_end us) (spacing us) 250
     = inr 104
  /\ determine_frequency_slot (lit "LongFast") 104 = inr slot
  /\ calculate_frequency (freq_start us) slot 250
     = inr (float_add (float_add (dec 9020 1) (dec 125 3))
                      (float_mul (Spec.to_float slot) (dec 25 2)))
  /\ main default_args
     = Printed (print_results (lit "LongFast") (lit "US") 104 slot
                  (float_add (float_add (dec 9020 1) (dec 125 3))
                             (float_mul (Spec.to_float slot) (dec 25 2)))
                  250 us)
  /\ slot = 19
  /\ float_add (float_add (dec 9020 1) (dec 125 3))
               (float_mul (Spec.to_float slot) (dec 25 2)) = dec 906875 3.
Proof.
  cbn zeta. repeat split; vm_compute; reflexivity.
Qed.

(* ===================================================================== *)
(** ** Binary64: integers below 2^53 and their true division             *)
(* ===================================================================== *)

Lemma digits2_pos_size (p : positive) : digits2_pos p = Pos.size p.
Proof. induction p; simpl; congruence. Qed.

Lemma Zdigits2_bounds (p : positive) :
  2 ^ (Zpos (digits2_pos p) - 1) <= Zpos p < 2 ^ Zpos (digits2_pos p).
Proof.
  rewrite digits2_pos_size.
  pose proof (Pos.size_gt p) as Hgt. pose proof (Pos.size_le p) as Hle.
  apply Pos2Z.pos_lt_pos in Hgt. apply Pos2Z.pos_le_pos in Hle.
  rewrite Pos2Z.inj_pow in Hgt, Hle.
  change (Z.pos p~0) with (2 * Z.pos p) in Hle.
  replace (Z.pos (Pos.size p)) with (Z.succ (Z.pos (Pos.size p) - 1)) in Hle at 1 by lia.
  rewrite Z.pow_succ_r in Hle by lia.
  lia.
Qed.

Lemma digits2_pos_unique (p : positive) (d : Z) :
  2 ^ (d - 1) <= Zpos p < 2 ^ d -> Zpos (digits2_pos p) = d.
Proof.
  intros [Hlo Hhi]. pose proof (Zdigits2_bounds p) as [Blo Bhi].
  assert (Hd : 0 < d).
  { destruct (Z.ltb_spec 0 d); [assumption|].
    destruct (Z.eqb_spec d 0) as [->|]. { simpl in Hhi. lia. }
    rewrite Z.pow_neg_r in Hhi by lia. lia. }
  destruct (Z.lt_trichotomy (Zpos (digits2_pos p)) d) as [Hlt | [Heq | Hgt]];
    [exfalso | exact Heq | exfalso].
  - assert (2 ^ Zpos (digits2_pos p) <= 2 ^ (d - 1))
      by (apply Z.pow_le_mono_r; lia). lia.
  - assert (2 ^ d <= 2 ^ (Zpos (digits2_pos p) - 1))
      by (apply Z.pow_le_mono_r; lia). lia.
Qed.

Lemma digits2_pos_shift (p q : positive) (k : Z) :
  0 <= k -> Zpos q = Zpos p * 2 ^ k ->
  Zpos (digits2_pos q) = Zpos (digits2_pos p) + k.
Proof.
  intros Hk Hq. apply digits2_pos_unique. rewrite Hq.
  pose proof (Zdigits2_bounds p) as [Blo Bhi].
  replace (Zpos (digits2_pos p) + k - 1) with ((Zpos (digits2_pos p) - 1) + k) by lia.
  rewrite !Z.pow_add_r by lia.
  assert (0 < 2 ^ k) by (apply Z.pow_pos_nonneg; lia).
  split; nia.
Qed.

Lemma iter_xO_pow (m d : positive) :
  Zpos (Pos.iter xO m d) = Zpos m * 2 ^ Zpos d.
Proof.
  induction d using Pos.peano_ind.
  - simpl. lia.
  - rewrite Pos.iter_succ, Pos2Z.inj_succ, Z.pow_succ_r by lia.
    rewrite Pos2Z.inj_xO, IHd. lia.
Qed.

(** A 53-bit mantissa with an exponent in range is left as it is. *)
Lemma round_canonical (s : bool) (m : positive) (e : Z) :
  Zpos (digits2_pos m) = 53 -> -1074 <= e <= 971 ->
  binary_round_aux prec emax s (Zpos m) e loc_Exact = S754_finite s m e.
Proof.
  intros Hd He.
  assert (Hshr : shr_fexp prec emax (Zpos m) e loc_Exact
                 = (Build_shr_record (Zpos m) false false, e)).
  { unfold shr_fexp, fexp, emin, prec, emax. cbn [Zdigits2 shr_record_of_loc].
    rewrite Hd.
    replace (Z.max (53 + e - 53) (3 - 1024 - 53) - e) with 0 by lia.
    reflexivity. }
  unfold binary_round_aux. rewrite Hshr.
  cbn [shr_m loc_of_shr_record round_nearest_even]. rewrite Hshr.
  cbn [shr_m]. unfold emax, prec.
  destruct (Z.leb_spec e (1024 - 53)); [reflexivity | lia].
Qed.

(** The float of a positive integer below [2^53]: its digits moved up to a
    53-bit mantissa. *)
Lemma binary_round_small (s : bool) (p : positive) :
  Zpos p < 2 ^ 53 ->
  exists m : positive,
    Zpos m = Zpos p * 2 ^ (53 - Zpos (digits2_pos p))
    /\ Zpos (digits2_pos m) = 53
    /\ binary_round prec emax s p 0 = S754_finite s m (Zpos (digits2_pos p) - 53).
Proof.
  intros Hp. pose proof (Zdigits2_bounds p) as [Blo Bhi].
  unfold binary_round, shl_align.
  set (d := Zpos (digits2_pos p)) in *.
  assert (Hd : 1 <= d <= 53).
  { split; [unfold d; lia|].
    destruct (Z.leb_spec d 53); [assumption|].
    assert (2 ^ 53 <= 2 ^ (d - 1)) by (apply Z.pow_le_mono_r; lia). lia. }
  replace (fexp prec emax (d + 0)) with (d - 53)
    by (unfold fexp, emin, prec, emax; lia).
  destruct (d - 53 - 0) as [|k|k] eqn:Ek; [| lia |].
  - exists p. replace (53 - d) with 0 by lia. rewrite Z.mul_1_r.
    split; [reflexivity|]. split; [fold d; lia|].
    replace (d - 53) with 0 by lia.
    apply round_canonical; [fold d; lia | lia].
  - exists (Pos.iter xO p k).
    assert (Hm : Zpos (Pos.iter xO p k) = Zpos p * 2 ^ (53 - d)).
    { rewrite iter_xO_pow. f_equal. f_equal. lia. }
    assert (Hdm : Zpos (digits2_pos (Pos.iter xO p k)) = 53).
    { rewrite (digits2_pos_shift p _ (53 - d)); [fold d; lia | lia | exact Hm]. }
    split; [exact Hm|]. split; [exact Hdm|].
    apply round_canonical; [exact Hdm | lia].
Qed.

Lemma div_eucl_div_mod (a b : Z) : Z.div_eucl a b = (a / b, a mod b).
Proof. unfold Z.div, Z.modulo. destruct (Z.div_eucl a b); reflexivity. Qed.

(** The place of a remainder in its divisor does not change when both are
    scaled by a power of two. *)
Lemma new_location_scale (b r k : Z) :
  0 <= k -> 0 <= r < b ->
  new_location (b * 2 ^ k) (r * 2 ^ k) = new_location b r.
Proof.
  intros Hk Hr.
  destruct (Z.eqb_spec k 0) as [->|Hk0].
  { now rewrite !Z.mul_1_r. }
  assert (Hc : 0 < 2 ^ k) by (apply Z.pow_pos_nonneg; lia).
  assert (Heven : Z.even (b * 2 ^ k) = true).
  { replace k with (Z.succ (k - 1)) by lia.
    rewrite Z.pow_succ_r by lia.
    replace (b * (2 * 2 ^ (k - 1))) with (2 * (b * 2 ^ (k - 1))) by lia.
    apply Z.even_mul. }
  unfold new_location. rewrite Heven.
  assert (Hcmp : (2 * (r * 2 ^ k) ?= b * 2 ^ k) = (2 * r ?= b)).
  { replace (2 * (r * 2 ^ k)) with (2 * r * 2 ^ k) by lia.
    symmetry. apply Zmult_compare_compat_r. lia. }
  assert (Hz : (r * 2 ^ k =? 0) = (r =? 0)).
  { destruct (Z.eqb_spec r 0) as [->|Hr0]; [reflexivity|].
    apply Z.eqb_neq. nia. }
  destruct (Z.even b) eqn:Eb;
    unfold new_location_even, new_location_odd; rewrite Hz, Hcmp;
    [reflexivity|].
  destruct (r =? 0); [reflexivity|]. f_equal.
  assert (Hodd : Z.odd b = true) by (rewrite <- Z.negb_even, Eb; reflexivity).
  apply Z.odd_spec in Hodd as [h Hh].
  destruct (Z.compare_spec (2 * r) b); destruct (Z.compare_spec (2 * r + 1) b);
    try reflexivity; lia.
Qed.

(** Dividing the 53-bit mantissas of two small integers is dividing the
    integers themselves: same quotient, same exponent, same place of the
    remainder. *)
Lemma div_core_aligned (a b ma mb : positive) :
  let ka := 53 - Zpos (digits2_pos a) in
  let kb := 53 - Zpos (digits2_pos b) in
  Zpos a < 2 ^ 53 -> Zpos b < 2 ^ 53 ->
  Zpos ma = Zpos a * 2 ^ ka -> Zpos mb = Zpos b * 2 ^ kb ->
  SFdiv_core_binary prec emax (Zpos ma) (- ka) (Zpos mb) (- kb)
  = SFdiv_core_binary prec emax (Zpos a) 0 (Zpos b) 0.
Proof.
  intros ka kb Ha Hb Hma Hmb.
  pose proof (Zdigits2_bounds a) as [Alo Ahi].
  pose proof (Zdigits2_bounds b) as [Blo Bhi].
  assert (Hka : 0 <= ka <= 52).
  { unfold ka. split; [|lia].
    destruct (Z.leb_spec (Zpos (digits2_pos a)) 53); [lia|].
    assert (2 ^ 53 <= 2 ^ (Zpos (digits2_pos a) - 1))
      by (apply Z.pow_le_mono_r; lia). lia. }
  assert (Hkb : 0 <= kb <= 52).
  { unfold kb. split; [|lia].
    destruct (Z.leb_spec (Zpos (digits2_pos b)) 53); [lia|].
    assert (2 ^ 53 <= 2 ^ (Zpos (digits2_pos b) - 1))
      by (apply Z.pow_le_mono_r; lia). lia. }
  assert (Hdma : Zpos (digits2_pos ma) = 53).
  { rewrite (digits2_pos_shift a ma ka); [unfold ka; lia | lia | exact Hma]. }
  assert (Hdmb : Zpos (digits2_pos mb) = 53).
  { rewrite (digits2_pos_shift b mb kb); [unfold kb; lia | lia | exact Hmb]. }
  unfold SFdiv_core_binary. cbn [Zdigits2]. rewrite Hdma, Hdmb.
  replace (Zpos (digits2_pos a)) with (53 - ka) by (unfold ka; lia).
  replace (Zpos (digits2_pos b)) with (53 - kb) by (unfold kb; lia).
  replace (Z.min (fexp prec emax (53 + - ka - (53 + - kb))) (- ka - - kb))
    with (kb - ka - 53) by (unfold fexp, emin, prec, emax; lia).
  replace (Z.min (fexp prec emax (53 - ka + 0 - (53 - kb + 0))) (0 - 0))
    with (kb - ka - 53) by (unfold fexp, emin, prec, emax; lia).
  replace (- ka - - kb - (kb - ka - 53)) with 53 by lia.
  destruct (0 - 0 - (kb - ka - 53)) as [|t|t] eqn:Et; [lia | | lia].
  rewrite <- Et. clear Et t.
  rewrite !Z.shiftl_mul_pow2 by lia.
  rewrite !div_eucl_div_mod.
  set (M := Zpos a * 2 ^ (0 - 0 - (kb - ka - 53))).
  assert (HM : Zpos ma * 2 ^ 53 = M * 2 ^ kb).
  { unfold M. rewrite Hma.
    replace (0 - 0 - (kb - ka - 53)) with (53 + ka - kb) by lia.
    rewrite <- !Z.mul_assoc, <- !Z.pow_add_r by lia. do 2 f_equal. lia. }
  assert (Hc : 0 < 2 ^ kb) by (apply Z.pow_pos_nonneg; lia).
  rewrite HM, Hmb.
  rewrite Z.div_mul_cancel_r by lia.
  rewrite Z.mul_mod_distr_r by lia.
  rewrite new_location_scale; [reflexivity | lia |].
  apply Z.mod_pos_bound. lia.
Qed.

Lemma Zdigits2_le (n D : Z) : 0 <= n < 2 ^ D -> 0 <= D -> 0 <= Zdigits2 n <= D.
Proof.
  intros [Hn Hlt] HD. destruct n as [|p|p]; cbn [Zdigits2]; [lia | | lia].
  pose proof (Zdigits2_bounds p) as [Blo _]. split; [lia|].
  destruct (Z.leb_spec (Zpos (digits2_pos p)) D); [assumption|].
  assert (2 ^ D <= 2 ^ (Zpos (digits2_pos p) - 1))
    by (apply Z.pow_le_mono_r; lia). lia.
Qed.

Lemma shr_1_le (r : shr_record) :
  0 <= shr_m r -> 0 <= shr_m (shr_1 r) <= shr_m r.
Proof.
  destruct r as [m rb sb]. cbn [shr_m]. intros Hm.
  destruct m as [|[p|p|]|p]; cbn [shr_1 shr_m]; lia.
Qed.

Lemma iter_shr_1_le (n : positive) (r : shr_record) :
  0 <= shr_m r -> 0 <= shr_m (iter_pos shr_1 n r) <= shr_m r.
Proof.
  revert r; induction n as [n IH | n IH |]; intros r Hr; cbn [iter_pos].
  - pose proof (shr_1_le r Hr) as H1.
    pose proof (IH (shr_1 r) (proj1 H1)) as H2.
    pose proof (IH _ (proj1 H2)) as H3. lia.
  - pose proof (IH r Hr) as H1.
    pose proof (IH _ (proj1 H1)) as H2. lia.
  - apply shr_1_le, Hr.
Qed.

(** Shifting to the exponent of the format: the mantissa does not grow and
    the exponent becomes the larger of the two. *)
Lemma shr_fexp_bounds (m e : Z) (l : location) :
  0 <= m ->
  let '(r, e') := shr_fexp prec emax m e l in
  0 <= shr_m r <= m /\ e' = Z.max e (fexp prec emax (Zdigits2 m + e)).
Proof.
  intros Hm. unfold shr_fexp, shr.
  assert (Hrec : shr_m (shr_record_of_loc m l) = m)
    by (destruct l as [|[]]; reflexivity).
  destruct (fexp prec emax (Zdigits2 m + e) - e) as [|n|n] eqn:En.
  - rewrite Hrec. lia.
  - pose proof (iter_shr_1_le n (shr_record_of_loc m l)) as H.
    rewrite Hrec in H. specialize (H Hm). lia.
  - rewrite Hrec. lia.
Qed.

Lemma round_nearest_even_bounds (m : Z) (l : location) :
  m <= round_nearest_even m l <= m + 1.
Proof.
  destruct l as [|[]]; cbn [round_nearest_even]; try lia.
  destruct (Z.even m); lia.
Qed.

(** Rounding a value well inside the range never gives an infinity. *)
Lemma binary_round_aux_finite (s : bool) (m e : Z) (l : location) :
  0 <= m < 2 ^ 160 -> -1074 <= e <= 0 ->
  forall s', binary_round_aux prec emax s m e l <> S754_infinity s'.
Proof.
  intros Hm He s'. unfold binary_round_aux.
  pose proof (shr_fexp_bounds m e l (proj1 Hm)) as H1.
  destruct (shr_fexp prec emax m e l) as [r1 e1]. destruct H1 as [Hr1 He1].
  set (m1 := round_nearest_even (shr_m r1) (loc_of_shr_record r1)).
  pose proof (round_nearest_even_bounds (shr_m r1) (loc_of_shr_record r1)) as Hm1.
  fold m1 in Hm1.
  assert (Hm1pos : 0 <= m1) by lia.
  pose proof (shr_fexp_bounds m1 e1 loc_Exact Hm1pos) as H2.
  destruct (shr_fexp prec emax m1 e1 loc_Exact) as [r2 e2].
  destruct H2 as [Hr2 He2].
  pose proof (Zdigits2_le m 160 Hm ltac:(lia)) as Hd.
  assert (Hd1 : 0 <= Zdigits2 m1 <= 161).
  { apply Zdigits2_le; [|lia]. split; [lia|].
    change (2 ^ 161) with (2 * 2 ^ 160). lia. }
  assert (He2' : e2 <= 971).
  { unfold fexp, emin, prec, emax in He1, He2. lia. }
  destruct (shr_m r2) as [|p|p]; try discriminate.
  unfold emax, prec. destruct (Z.leb_spec e2 (1024 - 53)); [discriminate | lia].
Qed.

Lemma to_float_small (n : Z) :
  Z.abs n < 2 ^ 53 -> float_of_int n = inr (Spec.to_float n).
Proof.
  intros Hn. unfold float_of_int, Spec.to_float.
  destruct n as [|p|p]; [reflexivity | |]; cbn [binary_normalize].
  - destruct (binary_round_small false p Hn) as (m & _ & _ & ->). reflexivity.
  - destruct (binary_round_small true p Hn) as (m & _ & _ & ->). reflexivity.
Qed.

(** True division of small integers is float division of their floats. *)
Lemma nearest_quotient_small (a b : Z) :
  Z.abs a < 2 ^ 53 -> 0 < b < 2 ^ 53 ->
  nearest_quotient a b = SFdiv prec emax (Spec.to_float a) (Spec.to_float b).
Proof.
  intros Ha Hb. destruct b as [|pb|pb]; try lia.
  unfold nearest_quotient, Spec.to_float. cbn [binary_normalize].
  destruct (binary_round_small false pb (proj2 Hb)) as (mb & Hmb & _ & ->).
  change (Z.pos pb <? 0) with false. rewrite xorb_false_r.
  destruct a as [|pa|pa]; cbn [binary_normalize SFdiv Z.abs].
  - reflexivity.
  - destruct (binary_round_small false pa Ha) as (ma & Hma & _ & ->).
    cbn [SFdiv xorb]. change (Z.pos pa <? 0) with false.
    replace (Zpos (digits2_pos pa) - 53) with (- (53 - Zpos (digits2_pos pa))) by lia.
    replace (Zpos (digits2_pos pb) - 53) with (- (53 - Zpos (digits2_pos pb))) by lia.
    rewrite (div_core_aligned pa pb ma mb Ha (proj2 Hb) Hma Hmb). reflexivity.
  - destruct (binary_round_small true pa Ha) as (ma & Hma & _ & ->).
    cbn [SFdiv xorb]. change (Z.neg pa <? 0) with true.
    replace (Zpos (digits2_pos pa) - 53) with (- (53 - Zpos (digits2_pos pa))) by lia.
    replace (Zpos (digits2_pos pb) - 53) with (- (53 - Zpos (digits2_pos pb))) by lia.
    rewrite (div_core_aligned pa pb ma mb Ha (proj2 Hb) Hma Hmb). reflexivity.
Qed.

Lemma nearest_quotient_finite (a b : Z) :
  Z.abs a < 2 ^ 53 -> 0 < b < 2 ^ 53 ->
  forall s, nearest_quotient a b <> S754_infinity s.
Proof.
  intros Ha Hb s. unfold nearest_quotient.
  destruct (Z.eqb_spec a 0) as [->|Ha0]; [discriminate|].
  assert (Hcore :
    let '(q, e, l) := SFdiv_core_binary prec emax (Z.abs a) 0 (Z.abs b) 0 in
    0 <= q < 2 ^ 160 /\ -1074 <= e <= 0).
  { unfold SFdiv_core_binary.
    pose proof (Zdigits2_le (Z.abs a) 53 ltac:(lia) ltac:(lia)) as Hda.
    pose proof (Zdigits2_le (Z.abs b) 53 ltac:(lia) ltac:(lia)) as Hdb.
    set (e := Z.min (fexp prec emax (Zdigits2 (Z.abs a) + 0 - (Zdigits2 (Z.abs b) + 0))) (0 - 0)).
    assert (He : -106 <= e <= 0) by (unfold e, fexp, emin, prec, emax; lia).
    set (m' := match 0 - 0 - e with
               | 0 => Z.abs a
               | Z.pos _ => Z.shiftl (Z.abs a) (0 - 0 - e)
               | Z.neg _ => 0
               end).
    assert (Hm' : 0 <= m' < 2 ^ 160).
    { unfold m'. destruct (0 - 0 - e) as [|t|t] eqn:Et; [lia | | lia].
      rewrite <- Et. rewrite Z.shiftl_mul_pow2 by lia.
      assert (0 < 2 ^ (0 - 0 - e) <= 2 ^ 106).
      { split; [apply Z.pow_pos_nonneg; lia | apply Z.pow_le_mono_r; lia]. }
      change (2 ^ 160) with (2 ^ 53 * 2 ^ 107).
      change (2 ^ 107) with (2 * 2 ^ 106). nia. }
    rewrite div_eucl_div_mod. split; [|lia]. split.
    - apply Z.div_pos; lia.
    - assert (m' / Z.abs b <= m'); [|lia].
      apply Z.div_le_upper_bound; nia. }
  destruct (SFdiv_core_binary prec emax (Z.abs a) 0 (Z.abs b) 0) as [[q e] l].
  destruct Hcore as [Hq He].
  destruct a; [congruence | |]; apply binary_round_aux_finite; assumption.
Qed.

Lemma int_truediv_small (a b : Z) :
  Z.abs a < 2 ^ 53 -> 0 < b < 2 ^ 53 ->
  int_truediv a b = inr (SFdiv prec emax (Spec.to_float a) (Spec.to_float b)).
Proof.
  intros Ha Hb. unfold int_truediv.
  destruct (Z.eqb_spec b 0); [lia|].
  pose proof (nearest_quotient_finite a b Ha Hb) as Hfin.
  rewrite <- (nearest_quotient_small a b Ha Hb).
  destruct (nearest_quotient a b); try reflexivity.
  exfalso. exact (Hfin s eq_refl).
Qed.

(* ===================================================================== *)
(** ** SlotResolver and FrequencyCalculator against their formulas        *)
(* ===================================================================== *)





(* ===================================================================== *)
(** ** The region lookup and the two listings                             *)
(* ===================================================================== *)

Lemma str_in_In (x : str) (xs : list str) : str_in x xs = true <-> In x xs.
Proof.
  unfold str_in. rewrite existsb_exists. split.
  - intros (y & Hy & E). apply str_eqb_eq in E. now subst y.
  - intros H. exists x. split; [exact H | now apply str_eqb_eq].
Qed.

Lemma distinct_NoDup (l : list str) : distinct l = true -> NoDup l.
Proof.
  induction l as [|x r IH]; cbn [distinct]; intros H; constructor.
  - apply andb_true_iff in H as [H _]. apply negb_true_iff in H.
    intros Hin. apply str_in_In in Hin. congruence.
  - apply IH. now apply andb_true_iff in H as [_ H].
Qed.

Lemma dict_get_None {V : Type} (d : list (str * V)) (k : str) :
  dict_get d k = None <-> ~ In k (List.map fst d).
Proof.
  induction d as [|[k' v'] d IH]; cbn [dict_get List.map fst In].
  - split; [intros _ [] | reflexivity].
  - destruct (str_eqb k k') eqn:E.
    + apply str_eqb_eq in E. split; [discriminate | intros H; contradict H; auto].
    + apply str_eqb_neq in E. rewrite IH. split.
      * intros H [H' | H']; [congruence | contradiction].
      * intros H H'. apply H. now right.
Qed.

Lemma dict_get_unique {V : Type} (d : list (str * V)) (k : str) (v : V) :
  NoDup (List.map fst d) -> In (k, v) d -> dict_get d k = Some v.
Proof.
  induction d as [|[k' v'] d IH]; cbn [dict_get List.map fst In]; [intros _ []|].
  intros Hnd [Heq | Hin].
  - injection Heq as -> ->.
    now rewrite (proj2 (str_eqb_eq k k) eq_refl).
  - inversion Hnd as [|x l Hnot Hnd']; subst.
    destruct (str_eqb k k') eqn:E.
    + apply str_eqb_eq in E. subst k'. contradict Hnot.
      change k with (fst (k, v)). now apply in_map.
    + now apply IH.
Qed.

Lemma region_codes_NoDup : NoDup region_codes.
Proof. apply distinct_NoDup. vm_compute. reflexivity. Qed.

(** X1: a region code that is neither "help" nor a key of the table is
    rejected: the lookup finds nothing and the run ends with the error and the
    region listing, whatever the channel name and the bandwidth; no slot count
    is computed and nothing is raised. *)
Theorem unknown_region_is_rejected (a : args) :
  arg_region a <> lit "help" ->
  ~ In (arg_region a) region_codes ->
  get_region_parameters (arg_region a) = None
  /\ main a = InvalidRegion (arg_region a) region_listing.
Proof.
  intros Hhelp Hnot.
  assert (Hnone : get_region_parameters (arg_region a) = None)
    by (apply dict_get_None, Hnot).
  split; [exact Hnone|].
  unfold main. rewrite (proj2 (str_eqb_neq _ _) Hhelp), Hnone. reflexivity.
Qed.

Lemma unknown_region_is_rejected_witness :
  main (mk_args (lit "LongFast") (Some 0) (lit "us"))
  = InvalidRegion (lit "us") region_listing.
Proof.
  apply (unknown_region_is_rejected (mk_args (lit "LongFast") (Some 0) (lit "us"))).
  - discriminate.
  - intros H. vm_compute in H. intuition discriminate.
Defined.

Lemma found_region_is_listed (region : str) (params : region_params) :
  get_region_parameters region = Some params -> In region region_codes.
Proof.
  intros G. apply dict_get_In in G. unfold region_codes.
  change region with (fst (region, params)). now apply in_map.
Qed.

(** X2: the region argument alone decides how a run ends.  The region
    listing is printed exactly when the region is not a key of the table: on
    its own when the region is the string "help", after the invalid-region
    error otherwise.  A key of the table never gives a listing: the run
    prints a report or ends with an exception. *)
Theorem region_decides_outcome (a : args) :
  (main a = RegionHelp region_listing <-> arg_region a = lit "help")
  /\ (main a = InvalidRegion (arg_region a) region_listing <->
      arg_region a <> lit "help" /\ ~ In (arg_region a) region_codes)
  /\ (((exists r, main a = Printed r) \/ (exists e, main a = Uncaught e)) <->
      In (arg_region a) region_codes)
  /\ ~ In (lit "help") region_codes.
Proof.
  assert (Hhelp : ~ In (lit "help") region_codes).
  { intros H. vm_compute in H. intuition discriminate. }
  split; [|split; [|split; [|exact Hhelp]]]; unfold main.
  - destruct (str_eqb (arg_region a) (lit "help")) eqn:E.
    + split; [intros _; now apply str_eqb_eq | reflexivity].
    + apply str_eqb_neq in E. split; [|contradiction].
      destruct (get_region_parameters (arg_region a)) as [params|];
        [destruct (resolve a params)|]; discriminate.
  - destruct (str_eqb (arg_region a) (lit "help")) eqn:E.
    + apply str_eqb_eq in E. split; [discriminate | intros [H _]; contradiction].
    + apply str_eqb_neq in E.
      destruct (get_region_parameters (arg_region a)) as [params|] eqn:G.
      * split; [destruct (resolve a params); discriminate|].
        intros [_ H]. contradict H. exact (found_region_is_listed _ _ G).
      * split; [|reflexivity].
        intros _. split; [exact E | apply dict_get_None, G].
  - destruct (str_eqb (arg_region a) (lit "help")) eqn:E.
    + apply str_eqb_eq in E. split.
      * intros [[r H] | [e H]]; discriminate.
      * rewrite E. intros H. contradiction.
    + destruct (get_region_parameters (arg_region a)) as [params|] eqn:G.
      * split; [intros _; exact (found_region_is_listed _ _ G)|].
        intros _. destruct (resolve a params) as [e | r];
          [right | left]; eexists; reflexivity.
      * split; [intros [[r H] | [e H]]; discriminate|].
        intros H. apply dict_get_None in G. contradiction.
Qed.

Lemma region_decides_outcome_witness :
  (exists r, main default_args = Printed r)
  \/ (exists e, main default_args = Uncaught e).
Proof.
  apply (proj2 (proj1 (proj2 (proj2 (region_decides_outcome default_args))))).
  vm_compute. left. reflexivity.
Defined.

(** X3: the listing and the lookup agree: no code occurs twice in the table,
    the listing has the codes of the table in its order, and a code is listed
    with a description exactly when the lookup finds an entry with that
    description. *)
Theorem listing_matches_lookup :
  NoDup region_codes
  /\ List.map fst region_listing = region_codes
  /\ List.length region_listing = 18%nat
  /\ forall (code : str) (desc : string),
       In (code, desc) region_listing <->
       exists params, get_region_parameters code = Some params
                      /\ description params = desc.
Proof.
  split; [exact region_codes_NoDup|].
  split; [reflexivity|]. split; [reflexivity|].
  intros code desc. unfold region_listing. rewrite in_map_iff. split.
  - intros ([k p] & Heq & Hin). cbn [fst snd] in Heq. injection Heq as -> <-.
    exists p. split; [|reflexivity].
    apply dict_get_unique; [exact region_codes_NoDup | exact Hin].
  - intros (params & Hget & Hdesc). exists (code, params).
    cbn [fst snd]. split; [now rewrite Hdesc|].
    apply dict_get_In, Hget.
Qed.

(* ===================================================================== *)
(** ** More on the hash                                                   *)
(* ===================================================================== *)

Lemma hash_string_fold (s : str) :
  hash_string s = fold_left Spec.djb2_step s 5381.
Proof. unfold hash_string. apply fold_hash_step. Qed.

Lemma djb2_step_mod (h h' c : Z) :
  h mod 2 ^ 32 = h' mod 2 ^ 32 ->
  Spec.djb2_step h c = (h' * 33 + c) mod 2 ^ 32.
Proof.
  intros E. unfold Spec.djb2_step.
  rewrite <- (Zplus_mod_idemp_l (h * 33)), <- (Zplus_mod_idemp_l (h' * 33)).
  rewrite <- (Zmult_mod_idemp_l h), <- (Zmult_mod_idemp_l h'), E. reflexivity.
Qed.

(** X4: the hash can be computed in pieces: hashing [s ++ t] is continuing
    the loop over [t] from the hash of [s], and one more character [c] turns
    the hash [h] of [s] into [(h*33 + c) mod 2^32]. *)
Theorem hash_string_app (s t : str) (c : Z) :
  hash_string (s ++ t) = fold_left Spec.djb2_step t (hash_string s)
  /\ hash_string (s ++ [c]) = (hash_string s * 33 + c) mod 2 ^ 32.
Proof.
  rewrite !hash_string_fold, !fold_left_app. split; reflexivity.
Qed.

(** X5: masking after every character is masking once at the end: the hash
    is the unmasked loop's value modulo 2^32. *)
Theorem hash_string_masks_once (s : str) :
  hash_string s = unmasked_hash s mod 2 ^ 32.
Proof.
  assert (H : forall (l : str) (h h' : Z),
             h mod 2 ^ 32 = h' mod 2 ^ 32 ->
             (fold_left Spec.djb2_step l h) mod 2 ^ 32
             = (fold_left (fun hash_value c =>
                             (Z.shiftl hash_value 5 + hash_value) + ord c) l h')
               mod 2 ^ 32).
  { induction l as [|c l IH]; intros h h' E; cbn [fold_left]; [exact E|].
    apply IH. rewrite (djb2_step_mod h h' c E).
    rewrite Z.mod_mod by lia. f_equal.
    unfold ord. rewrite Z.shiftl_mul_pow2 by lia. change (2 ^ 5) with 32. lia. }
  unfold unmasked_hash. rewrite <- (H s 5381 5381 eq_refl).
  rewrite <- hash_string_fold. symmetry. apply Z.mod_small.
  apply hash_string_range.
Qed.

(** X6: the hash has collisions of a fixed shape: raising one character by 1
    and lowering the next by 33 leaves the hash unchanged, anywhere in a
    string, so the two names get the same slot for every slot count; "aB" and
    "b!" are such a pair. *)
Theorem hash_string_collision (s t : str) (a b n : Z) :
  hash_string (s ++ [a; b] ++ t) = hash_string (s ++ [a + 1; b - 33] ++ t)
  /\ determine_frequency_slot (s ++ [a; b] ++ t) n
     = determine_frequency_slot (s ++ [a + 1; b - 33] ++ t) n
  /\ lit "aB" <> lit "b!"
  /\ hash_string (lit "aB") = hash_string (lit "b!").
Proof.
  assert (E : hash_string (s ++ [a; b] ++ t)
              = hash_string (s ++ [a + 1; b - 33] ++ t)).
  { rewrite !hash_string_fold, !fold_left_app. cbn [fold_left]. f_equal.
    set (h := fold_left Spec.djb2_step s 5381).
    rewrite (djb2_step_mod (Spec.djb2_step h a) (h * 33 + a) b)
      by (unfold Spec.djb2_step; apply Z.mod_mod; lia).
    rewrite (djb2_step_mod (Spec.djb2_step h (a + 1)) (h * 33 + (a + 1)) (b - 33))
      by (unfold Spec.djb2_step; apply Z.mod_mod; lia).
    f_equal. lia. }
  split; [exact E|]. split.
  - unfold determine_frequency_slot. now rewrite E.
  - split; [discriminate | reflexivity].
Qed.

(** X7: two strings that differ only in their last character never collide:
    for code points below 2^32, different last characters give different
    hashes. *)
Theorem hash_string_last_char (s : str) (c c' : Z) :
  0 <= c < 2 ^ 32 -> 0 <= c' < 2 ^ 32 -> c <> c' ->
  hash_string (s ++ [c]) <> hash_string (s ++ [c']).
Proof.
  intros Hc Hc' Hne E.
  rewrite !hash_string_fold, !fold_left_app in E. cbn [fold_left] in E.
  set (h := fold_left Spec.djb2_step s 5381) in E.
  unfold Spec.djb2_step in E.
  set (x := h * 33) in E.
  assert (Hd : (c - c') mod 2 ^ 32 = 0).
  { replace (c - c') with ((x + c) - (x + c')) by lia.
    rewrite Zminus_mod, E, Z.sub_diag. reflexivity. }
  apply Z.mod_divide in Hd; [|lia]. destruct Hd as [q Hq]. nia.
Qed.

Lemma hash_string_last_char_witness :
  hash_string (lit "LongFas" ++ [84]) <> hash_string (lit "LongFas" ++ [116]).
Proof.
  apply (hash_string_last_char (lit "LongFas") 84 116); [lia | lia | lia].
Defined.

(* ===================================================================== *)
(** ** Whole runs                                                         *)
(* ===================================================================== *)

Lemma upto_In (n k : Z) : 0 <= k < n -> In k (upto n).
Proof.
  intros H. unfold upto. apply in_map_iff. exists (Z.to_nat k).
  split; [lia|]. apply in_seq. lia.
Qed.

Lemma span_from_In (lo len : nat) (b : Z) :
  Z.of_nat lo <= b < Z.of_nat lo + Z.of_nat len -> In b (span_from lo len).
Proof.
  intros H. unfold span_from. apply in_map_iff. exists (Z.to_nat b).
  split; [lia|]. apply in_seq. lia.
Qed.

Lemma table_spacing_zero (region : str) (params : region_params) :
  In (region, params) REGION_FREQUENCIES -> spacing params = 0.
Proof.
  intros Hin.
  assert (H : forallb (fun kv : str * region_params => spacing (snd kv) =? 0)
                REGION_FREQUENCIES = true) by (vm_compute; reflexivity).
  rewrite forallb_forall in H. apply Z.eqb_eq, (H _ Hin).
Qed.

(** From a positive slot count on, nothing can raise. *)
Lemma resolve_positive (a : args) (params : region_params) (n : Z) :
  calculate_num_freq_slots (freq_start params) (freq_end params)
    (spacing params) (select_bandwidth a) = inr n ->
  1 <= n ->
  Z.abs (select_bandwidth a) < 2 ^ 53 ->
  resolve a params
  = inr (print_results (arg_channel_name a) (arg_region a) n
           (hash_string (arg_channel_name a) mod n)
           (Spec.frequency (freq_start params)
              (hash_string (arg_channel_name a) mod n) (select_bandwidth a))
           (select_bandwidth a) params).
Proof.
  intros Hn Hpos Hbw. unfold resolve. cbn zeta. rewrite Hn.
  cbn [bind Monad_either]. unfold determine_frequency_slot, int_mod.
  destruct (Z.eqb_spec n 0) as [|_]; [lia|].
  cbn [bind ret Monad_either].
  pose proof (hash_string_range (arg_channel_name a)) as Hh.
  pose proof (Z.mod_pos_bound (hash_string (arg_channel_name a)) n ltac:(lia)) as Hk.
  pose proof (Z.mod_le (hash_string (arg_channel_name a)) n ltac:(lia) ltac:(lia)) as Hle.
  unfold calculate_frequency.
  rewrite (int_truediv_small _ 2000 Hbw) by (split; reflexivity).
  rewrite (int_truediv_small _ 1000 Hbw) by (split; reflexivity).
  rewrite to_float_small by lia.
  reflexivity.
Qed.

(** X8: once the slot count is positive the run cannot fail: for any band
    and any bandwidth a float holds exactly, a slot count of at least 1 leads
    to a printed report, with the slot index the hash modulo the slot count and
    the frequency the value of the formula at that index. *)
Theorem positive_slot_count_prints
    (a : args) (params : region_params) (n : Z) :
  get_region_parameters (arg_region a) = Some params ->
  calculate_num_freq_slots (freq_start params) (freq_end params)
    (spacing params) (select_bandwidth a) = inr n ->
  1 <= n ->
  Z.abs (select_bandwidth a) < 2 ^ 53 ->
  main a
  = Printed (print_results (arg_channel_name a) (arg_region a) n
               (hash_string (arg_channel_name a) mod n)
               (Spec.frequency (freq_start params)
                  (hash_string (arg_channel_name a) mod n) (select_bandwidth a))
               (select_bandwidth a) params).
Proof.
  intros Hr Hn Hpos Hbw.
  rewrite (main_found _ _ Hr), (resolve_positive _ _ _ Hn Hpos Hbw). reflexivity.
Qed.

Lemma positive_slot_count_prints_witness :
  main (mk_args (lit "ShortTurbo") (Some 62) (lit "JP"))
  = Printed (print_results (lit "ShortTurbo") (lit "JP") 129
               (hash_string (lit "ShortTurbo") mod 129)
               (Spec.frequency (dec 9200 1)
                  (hash_string (lit "ShortTurbo") mod 129) 62)
               62
               (mk_params (dec 9200 1) (dec 9280 1) 0 "Japan - 920 MHz Band")).
Proof.
  apply (positive_slot_count_prints
           (mk_args (lit "ShortTurbo") (Some 62) (lit "JP"))
           (mk_params (dec 9200 1) (dec 9280 1) 0 "Japan - 920 MHz Band") 129).
  - reflexivity.
  - vm_compute. reflexivity.
  - lia.
  - reflexivity.
Defined.

(** X9: what a printed report holds: the region was found; region, channel
    name, band and bandwidth are the ones of the run; the slot count is the
    computed one and is not 0; the slot number shown is the slot index plus 1,
    in [1, slot count] when the slot count is positive; and the frequency was
    computed from the slot index, not from the number shown. *)
Theorem printed_report_shape (a : args) (r : report) :
  main a = Printed r ->
  exists params,
    get_region_parameters (arg_region a) = Some params
    /\ shown_region r = arg_region a
    /\ shown_channel_name r = arg_channel_name a
    /\ shown_description r = description params
    /\ shown_range r = (freq_start params, freq_end params)
    /\ shown_bw r = select_bandwidth a
    /\ calculate_num_freq_slots (freq_start params) (freq_end params)
         (spacing params) (select_bandwidth a) = inr (shown_num_freq_slots r)
    /\ shown_num_freq_slots r <> 0
    /\ shown_frequency_slot r
       = hash_string (arg_channel_name a) mod shown_num_freq_slots r + 1
    /\ (1 <= shown_num_freq_slots r ->
        1 <= shown_frequency_slot r <= shown_num_freq_slots r)
    /\ calculate_frequency (freq_start params) (shown_frequency_slot r - 1)
         (select_bandwidth a) = inr (shown_freq r).
Proof.
  unfold main.
  destruct (str_eqb (arg_region a) (lit "help")); [discriminate|].
  destruct (get_region_parameters (arg_region a)) as [params|]; [|discriminate].
  destruct (resolve a params) as [e | r'] eqn:Hres; [discriminate|].
  intros [= ->]. exists params. split; [reflexivity|].
  unfold resolve in Hres. cbn zeta in Hres.
  destruct (calculate_num_freq_slots _ _ _ _) as [e | n] eqn:Hn;
    cbn [bind Monad_either] in Hres; [discriminate|].
  unfold determine_frequency_slot, int_mod in Hres.
  destruct (Z.eqb_spec n 0) as [|Hn0];
    cbn [bind ret raise Monad_either Exception_either] in Hres; [discriminate|].
  destruct (calculate_frequency _ _ _) as [e | f] eqn:Hf;
    cbn [bind ret Monad_either] in Hres; [discriminate|].
  injection Hres as <-. unfold print_results.
  cbn [shown_region shown_channel_name shown_description shown_range shown_bw
       shown_num_freq_slots shown_frequency_slot shown_freq].
  repeat (split; [reflexivity || assumption|]).
  split.
  - intros Hpos.
    pose proof (Z.mod_pos_bound (hash_string (arg_channel_name a)) n). lia.
  - rewrite Z.add_simpl_r. exact Hf.
Qed.

Lemma printed_report_shape_witness :
  exists params,
    get_region_parameters (lit "US") = Some params
    /\ calculate_frequency (freq_start params) (20 - 1) 250 = inr (dec 906875 3).
Proof.
  destruct (printed_report_shape default_args
              (print_results (lit "LongFast") (lit "US") 104 19
                 (dec 906875 3) 250
                 (mk_params (dec 9020 1) (dec 9280 1) 0
                    "North America - 915 MHz ISM Band")))
    as (params & Hp & _ & _ & _ & _ & _ & _ & _ & _ & _ & Hf).
  - vm_compute. reflexivity.
  - exists params. split; [exact Hp | exact Hf].
Defined.

(** X10: every bandwidth from 1 to 500 kHz is safe in every region of the
    table: the slot count is at least 1 and the run prints its report; 500 is
    the largest such bandwidth, since "RU" with 501 kHz has no slot and the
    run ends with [ZeroDivisionError]. *)
Theorem bandwidths_up_to_500_print (a : args) (params : region_params) :
  get_region_parameters (arg_region a) = Some params ->
  1 <= select_bandwidth a <= 500 ->
  (exists n,
      calculate_num_freq_slots (freq_start params) (freq_end params)
        (spacing params) (select_bandwidth a) = inr n
      /\ 1 <= n
      /\ main a
         = Printed (print_results (arg_channel_name a) (arg_region a) n
                      (hash_string (arg_channel_name a) mod n)
                      (Spec.frequency (freq_start params)
                         (hash_string (arg_channel_name a) mod n)
                         (select_bandwidth a))
                      (select_bandwidth a) params))
  /\ main (mk_args (arg_channel_name a) (Some 501) (lit "RU"))
     = Uncaught ZeroDivisionError
  /\ calculate_num_freq_slots (dec 8687 1) (dec 8692 1) 0 501 = inr 0.
Proof.
  intros Hr Hbw. split; [|split; [reflexivity | vm_compute; reflexivity]].
  assert (Hall : forallb table_has_slots (span_from 1 500) = true)
      by (vm_compute; reflexivity).
    rewrite forallb_forall in Hall.
    specialize (Hall _ (span_from_In 1 500 (select_bandwidth a) ltac:(lia))).
    unfold table_has_slots in Hall. rewrite forallb_forall in Hall.
    specialize (Hall _ (dict_get_In _ _ _ Hr)). cbn [snd] in Hall.
    destruct (calculate_num_freq_slots _ _ _ _) as [e | n] eqn:Hn; [discriminate|].
    apply Z.leb_le in Hall. exists n. split; [reflexivity|]. split; [exact Hall|].
    rewrite (main_found _ _ Hr), (resolve_positive _ _ _ Hn Hall); [reflexivity|lia].
Qed.

Lemma bandwidths_up_to_500_print_witness :
  exists n,
    calculate_num_freq_slots (dec 4330 1) (dec 43479 2) 0 31 = inr n /\ 1 <= n.
Proof.
  destruct (proj1 (bandwidths_up_to_500_print
                     (mk_args (lit "LongFast") (Some 31) (lit "EU_433"))
                     (mk_params (dec 4330 1) (dec 43479 2) 0
                        "Europe - 433 MHz ISM Band")
                     eq_refl ltac:(cbn; lia)))
    as (n & Hn & Hpos & _).
  exists n. split; [exact Hn | exact Hpos].
Defined.

(** X11: without a bandwidth override every run on a region of the table
    prints a frequency strictly inside the band of the region, and a slot
    number between 1 and the slot count. *)
Theorem default_runs_stay_in_band (a : args) (params : region_params) :
  get_region_parameters (arg_region a) = Some params ->
  arg_bandwidth a = None ->
  exists r,
    main a = Printed r
    /\ SFltb (freq_start params) (shown_freq r) = true
    /\ SFltb (shown_freq r) (freq_end params) = true
    /\ 1 <= shown_frequency_slot r <= shown_num_freq_slots r.
Proof.
  intros Hr Hnone.
  assert (Hbw : select_bandwidth a = get_bandwidth_khz (arg_channel_name a))
    by (unfold select_bandwidth; now rewrite Hnone).
  assert (Hall : forall bw, In bw [125; 250; 500] ->
            forallb (fun kv : str * region_params => slots_in_band (snd kv) bw)
              REGION_FREQUENCIES = true).
  { intros bw Hin. cbn [In] in Hin.
    destruct Hin as [<- | [<- | [<- | []]]]; vm_compute; reflexivity. }
  assert (Hin : In (select_bandwidth a) [125; 250; 500]).
  { rewrite Hbw. cbn [In].
    destruct (get_bandwidth_khz_cases (arg_channel_name a)) as [-> | [-> | ->]];
      auto. }
  specialize (Hall _ Hin). rewrite forallb_forall in Hall.
  specialize (Hall _ (dict_get_In _ _ _ Hr)). cbn [snd] in Hall.
  unfold slots_in_band in Hall.
  destruct (calculate_num_freq_slots _ _ _ _) as [e | n] eqn:Hn; [discriminate|].
  apply andb_true_iff in Hall as [Hpos Hall]. apply Z.leb_le in Hpos.
  rewrite forallb_forall in Hall.
  pose proof (Z.mod_pos_bound (hash_string (arg_channel_name a)) n ltac:(lia)) as Hk.
  specialize (Hall _ (upto_In n _ Hk)).
  destruct (calculate_frequency _ _ _) as [e | f] eqn:Hf; [discriminate|].
  apply andb_true_iff in Hall as [Hlo Hhi].
  exists (print_results (arg_channel_name a) (arg_region a) n
            (hash_string (arg_channel_name a) mod n) f (select_bandwidth a) params).
  split.
  - rewrite (main_found _ _ Hr). unfold resolve. cbn zeta. rewrite Hn.
    cbn [bind Monad_either]. unfold determine_frequency_slot, int_mod.
    destruct (Z.eqb_spec n 0) as [|_]; [lia|].
    cbn [bind ret Monad_either]. rewrite Hf. reflexivity.
  - cbn [print_results shown_freq shown_frequency_slot shown_num_freq_slots].
    split; [exact Hlo|]. split; [exact Hhi | lia].
Qed.

Lemma default_runs_stay_in_band_witness :
  exists r,
    main (mk_args (lit "LongSlow") None (lit "RU")) = Printed r
    /\ SFltb (dec 8687 1) (shown_freq r) = true
    /\ SFltb (shown_freq r) (dec 8692 1) = true.
Proof.
  destruct (default_runs_stay_in_band
              (mk_args (lit "LongSlow") None (lit "RU"))
              (mk_params (dec 8687 1) (dec 8692 1) 0 "Russia - 868 MHz Band")
              eq_refl eq_refl)
    as (r & Hm & Hlo & Hhi & _).
  exists r. split; [exact Hm|]. split; [exact Hlo | exact Hhi].
Defined.

(** X12: a bandwidth of 0 with a spacing of 0 makes the slot count divide by
    zero: [calculate_num_freq_slots] raises [ZeroDivisionError] for every band,
    and since every entry of the table has spacing 0, a run with the bandwidth
    flag set to 0 ends with that error in every region. *)
Theorem zero_bandwidth_divides_by_zero (a : args) (params : region_params) :
  get_region_parameters (arg_region a) = Some params ->
  arg_bandwidth a = Some 0 ->
  (forall band_start band_end : float,
      calculate_num_freq_slots band_start band_end 0 0 = inl ZeroDivisionError)
  /\ spacing params = 0
  /\ main a = Uncaught ZeroDivisionError.
Proof.
  intros Hr Hz.
  assert (Hsp : spacing params = 0)
    by (apply (table_spacing_zero (arg_region a)), dict_get_In, Hr).
  split; [reflexivity|]. split; [exact Hsp|].
  rewrite (main_found _ _ Hr). unfold resolve, select_bandwidth. cbn zeta.
  rewrite Hz, Hsp. reflexivity.
Qed.

Lemma zero_bandwidth_divides_by_zero_witness :
  main (mk_args (lit "LongFast") (Some 0) (lit "CN")) = Uncaught ZeroDivisionError.
Proof.
  apply (zero_bandwidth_divides_by_zero
           (mk_args (lit "LongFast") (Some 0) (lit "CN"))
           (mk_params (dec 4700 1) (dec 5100 1) 0 "China - 470-510 MHz Band")).
  - reflexivity.
  - reflexivity.
Defined.

(* ===================================================================== *)
(** ** The degenerate band                                                *)
(* ===================================================================== *)

Lemma binary_round_aux_not_negative (m e : Z) (l : location) :
  not_negative (binary_round_aux prec emax false m e l) = true.
Proof.
  unfold binary_round_aux.
  destruct (shr_fexp prec emax m e l) as [r1 e1].
  destruct (shr_fexp prec emax _ e1 loc_Exact) as [r2 e2].
  destruct (shr_m r2); [reflexivity | | reflexivity].
  destruct (e2 <=? emax - prec); reflexivity.
Qed.

Lemma nearest_quotient_not_negative (a b : Z) :
  0 <= a -> 0 < b -> not_negative (nearest_quotient a b) = true.
Proof.
  intros Ha Hb. unfold nearest_quotient.
  destruct b as [|pb|pb]; try lia.
  destruct a as [|pa|pa]; try lia; [reflexivity|].
  cbn [Z.ltb Z.compare xorb].
  destruct (SFdiv_core_binary prec emax _ 0 _ 0) as [[q e] l].
  apply binary_round_aux_not_negative.
Qed.

Lemma float_of_int_not_negative (n : Z) (x : float) :
  0 <= n -> float_of_int n = inr x -> not_negative x = true.
Proof.
  intros Hn. unfold float_of_int.
  assert (H : not_negative (binary_normalize prec emax n 0 false) = true).
  { destruct n as [|p|p]; try lia; [reflexivity|].
    cbn [binary_normalize]. unfold binary_round.
    destruct (shl_align p 0 _) as [mz ez]. apply binary_round_aux_not_negative. }
  destruct (binary_normalize prec emax n 0 false);
    cbn [raise ret Monad_either Exception_either]; intros [= <-]; try discriminate; exact H.
Qed.

Lemma float_add_not_negative (x y : float) :
  not_negative x = true -> not_negative y = true ->
  not_negative (float_add x y) = true.
Proof.
  unfold float_add.
  destruct x as [sx | sx | | sx mx ex]; destruct y as [sy | sy | | sy my ey];
    try (destruct sx); try (destruct sy); cbn [not_negative SFadd];
    try reflexivity; try discriminate.
  intros _ _. cbn [cond_Zopp]. unfold binary_normalize.
  destruct (shl_align mx ex (Z.min ex ey)) as [m1 e1].
  destruct (shl_align my ey (Z.min ex ey)) as [m2 e2]. cbn [fst].
  change (Z.pos m1 + Z.pos m2) with (Z.pos (m1 + m2)). cbv iota.
  unfold binary_round.
  destruct (shl_align (m1 + m2) _ _) as [mz ez].
  apply binary_round_aux_not_negative.
Qed.

Lemma float_truediv_not_negative (x y q : float) :
  not_negative x = true -> not_negative y = true ->
  float_truediv x y = inr q -> not_negative q = true.
Proof.
  unfold float_truediv.
  destruct y as [sy | sy | | sy my ey]; cbn [is_zero];
    cbn [raise ret Monad_either Exception_either]; try discriminate;
    destruct x as [sx | sx | | sx mx ex];
    try (destruct sx); try (destruct sy); cbn [not_negative SFdiv xorb];
    try discriminate; intros _ _ [= <-]; try reflexivity.
  destruct (SFdiv_core_binary prec emax _ ex _ ey) as [[mz ez] lz].
  apply binary_round_aux_not_negative.
Qed.

Lemma math_floor_not_negative (x : float) (n : Z) :
  not_negative x = true -> math_floor x = inr n -> 0 <= n.
Proof.
  destruct x as [sx | sx | | sx mx ex];
    cbn [math_floor raise ret Monad_either Exception_either];
    try discriminate.
  - intros _ [= <-]. lia.
  - destruct sx; [discriminate|]. intros _ [= <-].
    cbn [cond_Zopp]. apply Z.shiftl_nonneg. lia.
Qed.

Lemma int_truediv_not_negative (a b : Z) (x : float) :
  0 <= a -> 0 < b -> int_truediv a b = inr x -> not_negative x = true.
Proof.
  intros Ha Hb. unfold int_truediv.
  destruct (Z.eqb_spec b 0); [lia|].
  pose proof (nearest_quotient_not_negative a b Ha Hb) as H.
  destruct (nearest_quotient a b);
    cbn [raise ret Monad_either Exception_either]; intros [= <-]; exact H.
Qed.

(** For a band that does not run backwards, a spacing that is not negative
    and a positive bandwidth, the slot count is never negative. *)
Lemma slot_count_not_negative (band_start band_end : float) (spacing bw n : Z) :
  not_negative (float_sub band_end band_start) = true ->
  0 <= spacing -> 0 < bw ->
  calculate_num_freq_slots band_start band_end spacing bw = inr n ->
  0 <= n.
Proof.
  intros Hspan Hsp Hbw. unfold calculate_num_freq_slots.
  destruct (int_truediv bw 1000) as [e | w] eqn:Ew;
    cbn [bind Monad_either]; [discriminate|].
  destruct (float_of_int spacing) as [e | sp] eqn:Esp;
    cbn [bind Monad_either]; [discriminate|].
  destruct (float_truediv _ (float_add sp w)) as [e | q] eqn:Eq;
    cbn [bind Monad_either]; [discriminate|].
  apply math_floor_not_negative.
  apply (float_truediv_not_negative _ _ _ Hspan) in Eq; [exact Eq|].
  apply float_add_not_negative.
  - exact (float_of_int_not_negative _ _ Hsp Esp).
  - apply (int_truediv_not_negative bw 1000); [lia | lia | exact Ew].
Qed.

Lemma table_span_not_negative (region : str) (params : region_params) :
  In (region, params) REGION_FREQUENCIES ->
  not_negative (float_sub (freq_end params) (freq_start params)) = true.
Proof.
  intros Hin.
  assert (H : forallb
                (fun kv : str * region_params =>
                   not_negative (float_sub (freq_end (snd kv)) (freq_start (snd kv))))
                REGION_FREQUENCIES = true) by (vm_compute; reflexivity).
  rewrite forallb_forall in H. exact (H _ Hin).
Qed.

(** C1, as the specification words it, fails: region "KR" (920.0 to
    923.0 MHz) with a bandwidth of 5000 kHz is narrower than one channel, yet
    the slot-count computation does not fail; it returns 0, and the error that
    ends the run is the [ZeroDivisionError] of the slot-index modulus. *)
Lemma degenerate_band_slot_count_returns :
  calculate_num_freq_slots (dec 9200 1) (dec 9230 1) 0 5000 = inr 0
  /\ determine_frequency_slot (lit "LongFast") 0 = inl ZeroDivisionError
  /\ main (mk_args (lit "LongFast") (Some 5000) (lit "KR"))
     = Uncaught ZeroDivisionError
  /\ ~ Spec.degenerate_band_is_an_error.
Proof.
  split; [vm_compute; reflexivity|]. split; [reflexivity|].
  split; [vm_compute; reflexivity|].
  intros H.
  specialize (H (dec 9200 1) (dec 9230 1) 0 5000 0).
  assert (E : calculate_num_freq_slots (dec 9200 1) (dec 9230 1) 0 5000 = inr 0)
    by (vm_compute; reflexivity).
  specialize (H E). lia.
Qed.

(** C1, amended: for a region of the table and a positive bandwidth, a
    computed slot count that is not positive is 0; the slot-count computation
    returns it without an error of its own, and the run ends with the
    uncaught [ZeroDivisionError] of the slot-index modulus: the count is not
    clamped to 1 and no frequency is computed. *)
Theorem degenerate_band_raises_ZeroDivisionError
    (a : args) (params : region_params) (n : Z) :
  get_region_parameters (arg_region a) = Some params ->
  0 < select_bandwidth a ->
  calculate_num_freq_slots (freq_start params) (freq_end params)
    (spacing params) (select_bandwidth a) = inr n ->
  n <= 0 ->
  n = 0
  /\ determine_frequency_slot (arg_channel_name a) n = inl ZeroDivisionError
  /\ resolve a params = inl ZeroDivisionError
  /\ main a = Uncaught ZeroDivisionError.
Proof.
  intros Hr Hbw Hn Hle.
  pose proof (dict_get_In _ _ _ Hr) as Hin.
  assert (H0 : n = 0).
  { assert (0 <= n); [|lia].
    apply (slot_count_not_negative (freq_start params) (freq_end params)
             (spacing params) (select_bandwidth a)).
    - exact (table_span_not_negative _ _ Hin).
    - rewrite (table_spacing_zero _ _ Hin). lia.
    - exact Hbw.
    - exact Hn. }
  subst n.
  assert (Hres : resolve a params = inl ZeroDivisionError).
  { unfold resolve. cbn zeta. rewrite Hn. reflexivity. }
  split; [reflexivity|]. split; [reflexivity|]. split; [exact Hres|].
  rewrite (main_found _ _ Hr), Hres. reflexivity.
Qed.

Lemma degenerate_band_raises_ZeroDivisionError_witness :
  main (mk_args (lit "ShortTurbo") (Some 2000) (lit "EU_433"))
  = Uncaught ZeroDivisionError.
Proof.
  apply (degenerate_band_raises_ZeroDivisionError
           (mk_args (lit "ShortTurbo") (Some 2000) (lit "EU_433"))
           (mk_params (dec 4330 1) (dec 43479 2) 0 "Europe - 433 MHz ISM Band")
           0).
  - reflexivity.
  - reflexivity.
  - vm_compute. reflexivity.
  - lia.
Defined.

(* ===================================================================== *)
(** ** Integers beyond 2^53                                               *)
(* ===================================================================== *)


